(** * predict.py: the image classifier adapter

    A shallow embedding of [predict_image] (src/predict.py) together with
    the part of NumPy, Pillow and Keras that the function calls, followed by
    the properties of the function.

    The function reads a model artifact and an image from the file system,
    so it is embedded in a small state-and-error monad: the state holds the
    file system and a log of the accesses made, a raised Python exception is
    the left injection of the result. *)

From Stdlib Require Import ZArith QArith SpecFloat.
From stdpp Require Import gmap strings list fin_maps.

Local Open Scope string_scope.
Local Open Scope list_scope.
Local Open Scope Z_scope.

(** ** NumPy values *)

Module Numpy.

(** The floating-point formats a model output can have. *)
Inductive float_format := binary16 | binary32 | binary64.

Definition prec (fmt : float_format) : Z :=
  match fmt with binary16 => 11 | binary32 => 24 | binary64 => 53 end.

Definition emax (fmt : float_format) : Z :=
  match fmt with binary16 => 16 | binary32 => 128 | binary64 => 1024 end.

(** An array element: an IEEE 754 float of one of the formats, an integer
    or a boolean. *)
Inductive scalar :=
| SFloat (fmt : float_format) (x : spec_float)
| SInt (z : Z)
| SBool (b : bool).

(** An n-dimensional array, stored as NumPy stores it: the shape and the
    elements in row-major order.  A zero-dimensional array (shape [[]],
    one element) is what indexing a one-dimensional array returns. *)
Record ndarray := mk_ndarray { shape : list nat; data : list scalar }.

Definition size_of (shp : list nat) : nat := foldr Nat.mul 1%nat shp.

Definition well_shaped (a : ndarray) : Prop :=
  length (data a) = size_of (shape a).

(** A float is well formed when it is a canonical member of its format. *)
Definition wf_scalar (s : scalar) : bool :=
  match s with
  | SFloat fmt x => valid_binary (prec fmt) (emax fmt) x
  | SInt _ | SBool _ => true
  end.

(** The conversion of a Python [int] to a format, rounding to nearest. *)
Definition float_of_Z (fmt : float_format) (k : Z) : spec_float :=
  binary_normalize (prec fmt) (emax fmt) k 0 false.

(** [x == k] for an element [x] and a Python integer [k]: the integer is
    converted to the element's type and the two are compared as numbers
    (IEEE equality for floats: a NaN equals nothing). *)
Definition scalar_eq_int (s : scalar) (k : Z) : bool :=
  match s with
  | SFloat fmt x => SFeqb x (float_of_Z fmt k)
  | SInt z => z =? k
  | SBool b => Z.b2z b =? k
  end.

(** The truth value of one element. *)
Definition scalar_truth (s : scalar) : bool :=
  match s with
  | SFloat _ (S754_zero _) => false
  | SFloat _ _ => true
  | SInt z => negb (z =? 0)
  | SBool b => b
  end.

(** The exact rational value of an element; [None] for NaN and the
    infinities. *)
Definition float_value (x : spec_float) : option Q :=
  match x with
  | S754_zero _ => Some 0%Q
  | S754_infinity _ | S754_nan => None
  | S754_finite s m e =>
      let sm := if s then Z.neg m else Z.pos m in
      Some (match e with
            | Z.neg k => Qmake sm (2 ^ k)%positive
            | _ => inject_Z (sm * 2 ^ e)
            end)
  end.

Definition scalar_value (s : scalar) : option Q :=
  match s with
  | SFloat _ x => float_value x
  | SInt z => Some (inject_Z z)
  | SBool b => Some (inject_Z (Z.b2z b))
  end.

(** [s] is numerically equal to the rational [q]. *)
Definition num_eq (s : scalar) (q : Q) : Prop :=
  match scalar_value s with
  | Some v => Qeq v q
  | None => False
  end.

(** ** Exceptions

    The Python exceptions the called libraries raise, with the part of their
    message that identifies the cause. *)

Inductive exn :=
| FileNotFoundError (path : string)
    (* open() of a path that names no file *)
| OSError_not_found (path : string)
    (* load_model: no file or directory found at the path *)
| OSError_bad_format (path : string)
    (* load_model: the file is not a model artifact *)
| UnidentifiedImageError (path : string)
    (* Image.open: cannot identify image file *)
| OSError_image_load (path : string)
    (* Pillow recognises the format of the file and cannot load it *)
| ValueError_input_shape (expected got : list nat)
    (* a model's complaint about an input it was not built for *)
| TypeError_not_subscriptable
    (* indexing a Python number *)
| ValueError_ambiguous_truth
    (* bool() of an array with more than one element *)
| IndexError_scalar
    (* invalid index to scalar variable *)
| IndexError_out_of_bounds (index size : nat)
    (* index out of bounds for axis 0 *).

(** [a[i]] for a non-negative Python integer [i]: the [i]-th sub-array
    along the first axis. *)
Definition getitem (a : ndarray) (i : nat) : exn + ndarray :=
  match shape a with
  | [] => inl IndexError_scalar
  | n :: rest =>
      if (i <? n)%nat
      then inr {| shape := rest;
                  data := take (size_of rest) (drop (i * size_of rest) (data a)) |}
      else inl (IndexError_out_of_bounds i n)
  end.

(** [a == k] for a Python integer [k]: the element-wise comparison, an
    array of booleans of the same shape. *)
Definition eq_int (a : ndarray) (k : Z) : ndarray :=
  {| shape := shape a;
     data := map (fun s => SBool (scalar_eq_int s k)) (data a) |}.

(** [bool(a)], what an [if] statement asks of its condition: the truth
    value of the only element; an empty array is false (NumPy 1.x, with a
    deprecation warning); an array of several elements has no truth
    value. *)
Definition truth (a : ndarray) : exn + bool :=
  match data a with
  | [] => inr false
  | [s] => inr (scalar_truth s)
  | _ :: _ :: _ => inl ValueError_ambiguous_truth
  end.

(** [np.expand_dims(a, axis)]: a new axis of length one at position
    [axis].  (NumPy rejects an [axis] beyond the number of dimensions; the
    source passes 0, which every array accepts.) *)
Definition expand_dims (a : ndarray) (axis : nat) : ndarray :=
  {| shape := take axis (shape a) ++ 1%nat :: drop axis (shape a);
     data := data a |}.

(** What [model.predict] hands back: an array, or a plain Python number
    when the output has no axis at all. *)
Inductive pyvalue :=
| PyArray (a : ndarray)
| PyNumber (x : scalar).

(** [v[i]] for such a value: a Python number cannot be indexed. *)
Definition subscript (v : pyvalue) (i : nat) : exn + ndarray :=
  match v with
  | PyArray a => getitem a i
  | PyNumber _ => inl TypeError_not_subscriptable
  end.

End Numpy.
Export Numpy.

(** ** Pillow images *)

Module PIL.

Inductive mode := L | RGB | RGBA.

Definition bands (m : mode) : nat :=
  match m with L => 1 | RGB => 3 | RGBA => 4 end%nat.

(** A decoded image: its mode, its size in pixels (never zero) and the value
    of band [b] of the pixel in column [x] of row [y]. *)
Record Image := mk_Image {
  im_mode : mode;
  im_width : positive;
  im_height : positive;
  im_pixel : N -> N -> N -> N
}.

(** [img.convert('RGB')]: a grey level is repeated on the three bands, the
    alpha band is dropped. *)
Definition convert_RGB (img : Image) : Image :=
  {| im_mode := RGB;
     im_width := im_width img;
     im_height := im_height img;
     im_pixel := fun x y b =>
       match im_mode img with
       | L => im_pixel img x y 0%N
       | RGB | RGBA => im_pixel img x y b
       end |}.

(** The source coordinate that nearest-neighbour resampling reads for the
    destination coordinate [i], from an axis of [n] pixels to one of [n']:
    the pixel under the centre of the destination pixel. *)
Definition nearest (n n' : positive) (i : N) : N :=
  ((2 * i + 1) * N.pos n / (2 * N.pos n'))%N.

(** [img.resize((width, height), Image.NEAREST)]. *)
Definition resize (img : Image) (width height : positive) : Image :=
  {| im_mode := im_mode img;
     im_width := width;
     im_height := height;
     im_pixel := fun x y b =>
       im_pixel img (nearest (im_width img) width x)
                    (nearest (im_height img) height y) b |}.

End PIL.
Export PIL.

(** ** The world the function runs in *)

(** A loaded Keras model, a black box: its forward pass on a batch, which
    answers with an array or raises, as it does for a batch it was not
    built for.  The first argument of [forward] stands for everything the
    runtime contributes to an inference besides the weights and the input
    (stochastic layers left active, reduction order on an accelerator); a
    deterministic model ignores it. *)
Record Model := mk_Model {
  forward : nat -> ndarray -> exn + ndarray
}.

Definition deterministic (m : Model) : Prop :=
  forall e1 e2 x, forward m e1 x = forward m e2 x.

(** What a path of the file system can hold: an image in a format Pillow
    decodes, a serialized model, or anything else, of which only this
    matters: whether Pillow recognises its format (and then fails to load
    it, as it does for a truncated image) or not. *)
Inductive file :=
| ImageFile (img : Image)
| ModelFile (m : Model)
| OtherFile (recognised : bool).

(** The observable accesses. *)
Inductive event :=
| EvRead (path : string)         (* a file was opened and read *)
| EvOpenFailed (path : string)   (* a path was looked up and not found *)
| EvWrite (path : string)
| EvNetwork (host : string).

(** The state of the world: the file system, the entropy the runtime will
    feed to the next inference, and the accesses made so far (the latest
    last). *)
Record State := mk_State {
  fs : gmap string file;
  entropy : nat;
  log : list event
}.

Definition emit (ev : event) (st : State) : State :=
  {| fs := fs st; entropy := entropy st; log := log st ++ [ev] |}.

(** ** The monad: state and exceptions *)

Definition M (A : Type) : Type := State -> (exn + A) * State.

Definition ret {A} (a : A) : M A := fun st => (inr a, st).

Definition raise {A} (e : exn) : M A := fun st => (inl e, st).

Definition bind {A B} (m : M A) (k : A -> M B) : M B :=
  fun st =>
    match m st with
    | (inl e, st') => (inl e, st')
    | (inr a, st') => k a st'
    end.

(** A pure computation that may raise. *)
Definition lift {A} (r : exn + A) : M A :=
  match r with inl e => raise e | inr a => ret a end.

#[global] Instance M_ret : MRet M := @ret.
#[global] Instance M_bind : MBind M := fun A B k m => bind m k.

(** ** Keras *)

Module Keras.

(** [open(path, 'rb')] followed by a full read. *)
Definition read_file (path : string) : M file :=
  fun st =>
    match fs st !! path with
    | Some f => (inr f, emit (EvRead path) st)
    | None => (inl (FileNotFoundError path), emit (EvOpenFailed path) st)
    end.

(** [keras.models.load_model(filepath)]: deserializes the artifact at
    [filepath]. *)
Definition load_model (filepath : string) : M Model :=
  fun st =>
    match fs st !! filepath with
    | Some (ModelFile m) => (inr m, emit (EvRead filepath) st)
    | Some _ => (inl (OSError_bad_format filepath), emit (EvRead filepath) st)
    | None => (inl (OSError_not_found filepath), emit (EvOpenFailed filepath) st)
    end.

(** [keras.preprocessing.image.load_img(path, target_size=(height, width))]
    with the defaults [color_mode='rgb'] and [interpolation='nearest']:
    the file is read and decoded, converted to RGB unless it already is,
    and resized unless it already has the target size.  A file that holds
    no image fails here: Pillow does not identify it, or it recognises the
    format and cannot load the pixels, which is also what happens to the
    HDF5 file of a model. *)
Definition load_img (path : string) (target_size : positive * positive) : M Image :=
  f ← read_file path;
  match f with
  | ImageFile img =>
      let img := match im_mode img with RGB => img | _ => convert_RGB img end in
      let width_height := (snd target_size, fst target_size) in
      let img :=
        if ((im_width img =? fst width_height) && (im_height img =? snd width_height))%positive
        then img
        else resize img (fst width_height) (snd width_height) in
      ret img
  | ModelFile _ => raise (OSError_image_load path)
  | OtherFile recognised =>
      raise (if recognised then OSError_image_load path
             else UnidentifiedImageError path)
  end.

(** [keras.preprocessing.image.img_to_array(img)] with the default
    [channels_last] data format: a float32 array of shape
    (height, width, bands). *)
Definition img_to_array (img : Image) : ndarray :=
  let h := Pos.to_nat (im_height img) in
  let w := Pos.to_nat (im_width img) in
  let c := bands (im_mode img) in
  {| shape := [h; w; c];
     data :=
       flat_map (fun y =>
         flat_map (fun x =>
           map (fun b =>
                  SFloat binary32
                    (float_of_Z binary32
                       (Z.of_N (im_pixel img (N.of_nat x) (N.of_nat y) (N.of_nat b)))))
               (seq 0 c))
           (seq 0 w))
         (seq 0 h) |}.

(** The last step of [model.predict]: an output without axes is handed
    back as a Python number, any other as the array it is. *)
Definition sync_to_python (out : ndarray) : pyvalue :=
  match shape out, data out with
  | [], [x] => PyNumber x
  | _, _ => PyArray out
  end.

(** [model.predict(x)]: the forward pass on the batch [x]; what the model
    raises is raised, what it answers is handed back. *)
Definition predict (model : Model) (x : ndarray) : M pyvalue :=
  fun st =>
    match forward model (entropy st) x with
    | inl e => (inl e, st)
    | inr out => (inr (sync_to_python out), st)
    end.

End Keras.
Export Keras.

(** ** The function of src/predict.py *)

Definition predict_image (image_path : string) : M string :=
  (* Load the trained model *)
  model ← load_model "model.h5";
  (* Load and preprocess the image *)
  img ← load_img image_path (64, 64)%positive;
  let img := img_to_array img in
  let img := expand_dims img 0 in
  (* Make a prediction *)
  result ← predict model img;
  result_0 ← lift (subscript result 0);
  result_0_0 ← lift (getitem result_0 0);
  cond ← lift (truth (eq_int result_0_0 1));
  if cond : bool
  then ret "Normal"
  else ret "Covid".

(** ** Names for the parts of [predict_image] *)

(** What [model.predict] returns, with the effects of everything up to
    that call: the first five statements of [predict_image]. *)
Definition model_output (image_path : string) : M pyvalue :=
  model ← load_model "model.h5";
  img ← load_img image_path (64, 64)%positive;
  predict model (expand_dims (img_to_array img) 0).

(** [result[0][0]]. *)
Definition at00 (result : pyvalue) : exn + ndarray :=
  match subscript result 0 with
  | inl e => inl e
  | inr result_0 => getitem result_0 0
  end.

(** The [if] statement of [predict_image], as a function of [result]. *)
Definition decode (result : pyvalue) : exn + string :=
  match at00 result with
  | inl e => inl e
  | inr result_0_0 =>
      match truth (eq_int result_0_0 1) with
      | inl e => inl e
      | inr true => inr "Normal"
      | inr false => inr "Covid"
      end
  end.

(** A zero-dimensional array holding [x]: what [result[0][0]] is for a
    two-dimensional [result]. *)
Definition element (x : scalar) : ndarray := {| shape := []; data := [x] |}.




(** [predict_image] over any implementation of the three library calls. *)
Section Library.

Variable load_model' : string -> M Model.
Variable load_img' : string -> positive * positive -> M Image.
Variable predict' : Model -> ndarray -> M pyvalue.


End Library.

(** The path an access to the file system names. *)
Definition accessed (ev : event) : option string :=
  match ev with
  | EvRead p | EvOpenFailed p | EvWrite p => Some p
  | EvNetwork _ => None
  end.

(** The world as an invocation finds it when the file system and the
    entropy have been replaced since the last one. *)
Definition with_world (files : gmap string file) (e : nat) (st : State) : State :=
  {| fs := files; entropy := e; log := log st |}.

(** The ways an invocation can touch the world. *)
Inductive trace (image_path : string) (st : State) : exn + string -> list event -> Prop :=
| trace_no_model :
    fs st !! "model.h5" = None ->
    trace image_path st (inl (OSError_not_found "model.h5"))
          [EvOpenFailed "model.h5"]
| trace_bad_model f :
    fs st !! "model.h5" = Some f ->
    (forall m, f <> ModelFile m) ->
    trace image_path st (inl (OSError_bad_format "model.h5"))
          [EvRead "model.h5"]
| trace_no_image m :
    fs st !! "model.h5" = Some (ModelFile m) ->
    fs st !! image_path = None ->
    trace image_path st (inl (FileNotFoundError image_path))
          [EvRead "model.h5"; EvOpenFailed image_path]
| trace_both m f r :
    fs st !! "model.h5" = Some (ModelFile m) ->
    fs st !! image_path = Some f ->
    trace image_path st r [EvRead "model.h5"; EvRead image_path].

(** Unfolds the monad operations. *)
Ltac unfold_M :=
  unfold mbind, M_bind, mret, M_ret, bind, lift, ret, raise in *.

Definition is_index_error (e : exn) : bool :=
  match e with
  | IndexError_scalar | IndexError_out_of_bounds _ _ => true
  | _ => false
  end.

(** The image [load_img] returns for the decoded image [img]: converted to
    RGB unless it is RGB, resized unless it has the target size. *)
Definition loaded (img : Image) (target_size : positive * positive) : Image :=
  let rgb := match im_mode img with RGB => img | _ => convert_RGB img end in
  if ((im_width rgb =? snd target_size) && (im_height rgb =? fst target_size))%positive
  then rgb
  else resize rgb (snd target_size) (fst target_size).

(** The tensor [predict_image] makes of a decoded image. *)
Definition tensor_of (img : Image) : ndarray :=
  expand_dims (img_to_array (loaded img (64, 64)%positive)) 0.

(** What the model [m] and the decoding make of a decoded image: the
    outcome of the last six lines of [predict_image]. *)
Definition inference (m : Model) (e : nat) (img : Image) : exn + string :=
  match forward m e (tensor_of img) with
  | inl err => inl err
  | inr out => decode (sync_to_python out)
  end.

(** ** Sample worlds *)

Module Samples.

(** float32 constants. *)
Definition f32 (num den : Z) : scalar :=
  SFloat binary32 (SFdiv 24 128 (float_of_Z binary32 num) (float_of_Z binary32 den)).

(** float64 constants. *)
Definition f64 (num den : Z) : scalar :=
  SFloat binary64 (SFdiv 53 1024 (float_of_Z binary64 num) (float_of_Z binary64 den)).

(** The output [[x]] of a model with one output unit. *)
Definition arr2 (x : scalar) : ndarray := {| shape := [1; 1]%nat; data := [x] |}.

(** A model that answers [out] whatever the batch. *)
Definition const_model (out : ndarray) : Model :=
  {| forward := fun _ _ => inr out |}.

(** A model whose answer is the entropy of the run: not deterministic. *)
Definition noisy_model : Model :=
  {| forward := fun e _ => inr (arr2 (SInt (Z.of_nat e))) |}.

(** A greyscale gradient of the given size. *)
Definition grey (w h : positive) : Image :=
  {| im_mode := L; im_width := w; im_height := h;
     im_pixel := fun x y _ => ((x + y) mod 256)%N |}.

(** A colour image of the given size. *)
Definition colour (w h : positive) : Image :=
  {| im_mode := RGB; im_width := w; im_height := h;
     im_pixel := fun x y b => ((x + 2 * y + 5 * b) mod 256)%N |}.

(** A model built for batches of 224x224 RGB images, which rejects any
    other input. *)
Definition large_model : Model :=
  {| forward := fun _ x =>
       if decide (tail (shape x) = [224; 224; 3]%nat)
       then inr (arr2 (SInt 1))
       else inl (ValueError_input_shape [224; 224; 3]%nat (tail (shape x))) |}.

(** A working directory holding [model.h5] and the image [xray.png]. *)
Definition world (m : Model) (img : Image) : State :=
  {| fs := <["model.h5" := ModelFile m]> (<["xray.png" := ImageFile img]> ∅);
     entropy := 0;
     log := [] |}.

(** The world after a run that read the model and the image. *)
Definition after_run (st : State) : State :=
  emit (EvRead "xray.png") (emit (EvRead "model.h5") st).

(** A working directory holding only the image. *)
Definition world_without_model (img : Image) : State :=
  {| fs := <["xray.png" := ImageFile img]> ∅; entropy := 0; log := [] |}.

End Samples.

(** ** The structure of [predict_image] *)

(** [predict_image] computes the model output, then decodes it. *)
Lemma predict_image_eq image_path st :
  predict_image image_path st =
  match model_output image_path st with
  | (inl e, st') => (inl e, st')
  | (inr result, st') => (decode result, st')
  end.
Proof.
  unfold predict_image, model_output, decode, at00. unfold_M.
  destruct (load_model "model.h5" st) as [[e | model] st1]; [done|].
  destruct (load_img image_path (64, 64)%positive st1) as [[e | img] st2]; [done|].
  destruct (predict model _ st2) as [[e | result] st3]; [done|].
  destruct (subscript result 0) as [e | r0]; [done|].
  destruct (getitem r0 0) as [e | r00]; [done|].
  destruct (truth _) as [e | []]; done.
Qed.

(** The steps of [model_output], one after the other. *)
Lemma model_output_eq image_path st :
  model_output image_path st =
  match load_model "model.h5" st with
  | (inl e, st1) => (inl e, st1)
  | (inr model, st1) =>
      match load_img image_path (64, 64)%positive st1 with
      | (inl e, st2) => (inl e, st2)
      | (inr img, st2) => predict model (expand_dims (img_to_array img) 0) st2
      end
  end.
Proof. reflexivity. Qed.

Lemma decode_label result s :
  decode result = inr s -> s = "Normal" \/ s = "Covid".
Proof.
  unfold decode. intros H.
  destruct (at00 result) as [e | r00]; [done|].
  destruct (truth _) as [e | []]; simplify_eq; auto.
Qed.

(** Decoding an output whose [[0][0]] entry is the single element [x]. *)
Lemma decode_element result x :
  at00 result = inr (element x) ->
  decode result = inr (if scalar_eq_int x 1 then "Normal" else "Covid").
Proof.
  intros H. unfold decode. rewrite H. simpl.
  by destruct (scalar_eq_int x 1).
Qed.

(** ** Comparing an element with the integer 1 *)

Lemma digits2_pos_pow2 (k : positive) : digits2_pos (2 ^ k) = Pos.succ k.
Proof.
  induction k as [|k IH] using Pos.peano_ind; [reflexivity|].
  rewrite Pos.pow_succ_r.
  change (digits2_pos (2 * 2 ^ k)) with (Pos.succ (digits2_pos (2 ^ k))).
  by rewrite IH.
Qed.

Lemma SFeqb_finite x m e :
  SFeqb x (S754_finite false m e) = true <-> x = S754_finite false m e.
Proof.
  split; [|intros ->; unfold SFeqb; simpl;
           by rewrite Z.compare_refl, Pos.compare_cont_refl].
  unfold SFeqb. destruct x as [s | s | | s m' e']; simpl;
    try (destruct s; discriminate); try discriminate.
  destruct s; [discriminate|].
  destruct (Z.compare_spec e' e) as [-> | |]; try discriminate.
  change (Pos.compare_cont Eq m' m) with (Pos.compare m' m).
  destruct (Pos.compare_spec m' m) as [-> | |]; done.
Qed.

(** The float 1.0 of each format. *)
Lemma float_of_Z_one fmt :
  float_of_Z fmt 1 = S754_finite false (2 ^ Z.to_pos (prec fmt - 1)) (1 - prec fmt).
Proof. destruct fmt; vm_compute; reflexivity. Qed.

Lemma float_value_one fmt v :
  float_value (float_of_Z fmt 1) = Some v -> Qeq v 1.
Proof. destruct fmt; vm_compute; intros [= <-]; reflexivity. Qed.

(** A canonical float of a format whose value is 1 is the float 1.0. *)
Lemma valid_value_one fmt x v :
  valid_binary (prec fmt) (emax fmt) x = true ->
  float_value x = Some v -> Qeq v 1 ->
  x = float_of_Z fmt 1.
Proof.
  intros Hvalid Hv Hone. rewrite float_of_Z_one.
  destruct x as [s | s | | s m e]; simpl in Hv; simplify_eq.
  - unfold Qeq in Hone; simpl in Hone; lia.
  - simpl in Hvalid. unfold bounded, canonical_mantissa in Hvalid.
    apply andb_prop in Hvalid as [Hcanon _]. apply Z.eqb_eq in Hcanon.
    destruct e as [| e | k].
    + (* exponent 0: the mantissa is 1, which no format holds at exponent 0 *)
      unfold Qeq, inject_Z in Hone; simpl in Hone.
      assert (m = 1%positive) as -> by (destruct s; lia).
      by destruct fmt.
    + (* a positive exponent makes the magnitude at least 2 *)
      unfold Qeq, inject_Z in Hone; simpl in Hone.
      assert (1 < 2 ^ Z.pos e) by (apply Z.pow_gt_1; lia).
      destruct s; nia.
    + unfold Qeq in Hone; simpl in Hone.
      destruct s; [lia|].
      assert (m = (2 ^ k)%positive) as -> by lia.
      rewrite digits2_pos_pow2 in Hcanon.
      assert (Z.neg k = 1 - prec fmt) as Hk.
      { unfold fexp, emin in Hcanon. destruct fmt; simpl in *; lia. }
      rewrite <- Hk. do 2 f_equal.
      destruct fmt; simpl in *; lia.
Qed.

(** [x == 1] holds exactly when [x] is numerically 1. *)
Lemma scalar_eq_int_one_iff x :
  wf_scalar x = true -> (scalar_eq_int x 1 = true <-> num_eq x 1).
Proof.
  intros Hwf. unfold num_eq.
  destruct x as [fmt x | z | b]; cbn [scalar_eq_int scalar_value wf_scalar] in *.
  - rewrite float_of_Z_one, SFeqb_finite, <- float_of_Z_one. split.
    + intros ->. destruct (float_value (float_of_Z fmt 1)) as [v|] eqn:Hv.
      * by apply (float_value_one fmt).
      * destruct fmt; vm_compute in Hv; discriminate.
    + destruct (float_value x) as [v|] eqn:Hv; [|done].
      intros Hone. by apply (valid_value_one fmt x v).
  - rewrite Z.eqb_eq. unfold Qeq, inject_Z; simpl. lia.
  - rewrite Z.eqb_eq. unfold Qeq, inject_Z; simpl. lia.
Qed.

(** ** Effects *)

(** An invocation leaves the file system and the entropy as they were and
    appends one of four traces to the log. *)
Lemma predict_image_trace image_path st :
  let r := predict_image image_path st in
  fs r.2 = fs st /\ entropy r.2 = entropy st /\
  exists evs, log r.2 = log st ++ evs /\ trace image_path st r.1 evs.
Proof.
  rewrite predict_image_eq, model_output_eq.
  unfold load_model, load_img, read_file, predict. unfold_M. simpl.
  destruct (fs st !! "model.h5") as [f|] eqn:Hmodel; simpl.
  2: { repeat split; eexists; split; [done|]. by constructor. }
  destruct f as [img | m | recognised]; simpl.
  1, 3: repeat split; eexists; (split; [done|]);
        eapply trace_bad_model; [done | congruence].
  destruct (fs st !! image_path) as [f|] eqn:Himg; simpl.
  2: { repeat split; eexists; split; [by rewrite <- app_assoc|].
       by econstructor. }
  assert (forall r : exn + string,
    trace image_path st r [EvRead "model.h5"; EvRead image_path])
    as Hboth by (intros; by econstructor).
  destruct f as [img | m' | recognised]; simpl.
  2, 3: repeat split; eexists; (split; [by rewrite <- app_assoc|]); apply Hboth.
  destruct (forward m _ _); simpl;
    repeat split; eexists; (split; [by rewrite <- app_assoc|]); apply Hboth.
Qed.

(** The outcome of an invocation is a function of the file system and, when
    the model is not deterministic, of the entropy; the log plays no part. *)
Lemma predict_image_ext image_path st1 st2 :
  fs st1 = fs st2 ->
  (entropy st1 = entropy st2 \/
   forall m, fs st1 !! "model.h5" = Some (ModelFile m) -> deterministic m) ->
  (predict_image image_path st1).1 = (predict_image image_path st2).1.
Proof.
  intros Hfs Hent. rewrite !predict_image_eq, !model_output_eq.
  unfold load_model, load_img, read_file, predict. unfold_M.
  destruct st1 as [files e1 l1], st2 as [files2 e2 l2]; simpl in Hfs, Hent; subst files2.
  cbn [fs entropy emit].
  destruct (files !! "model.h5") as [[img | m | recognised]|] eqn:Hmodel; cbn [fs entropy emit fst snd]; try done.
  destruct (files !! image_path) as [[img | m' | recognised]|]; cbn [fs entropy emit fst snd]; try done.
  assert (forall x, forward m e1 x = forward m e2 x) as Hsame.
  { intros x. destruct Hent as [-> | Hdet]; [done|]. apply (Hdet m eq_refl). }
  rewrite Hsame. by destruct (forward m e2 _).
Qed.

(** ** Preprocessing *)

Lemma length_flat_map_const {A B} (f : A -> list B) (l : list A) (n : nat) :
  (forall a, length (f a) = n) -> length (flat_map f l) = (length l * n)%nat.
Proof.
  intros Hf. induction l as [|a l IH]; simpl; [done|].
  by rewrite length_app, Hf, IH.
Qed.

Lemma img_to_array_well_shaped img : well_shaped (img_to_array img).
Proof.
  unfold well_shaped, img_to_array; simpl.
  rewrite (length_flat_map_const _ _ (Pos.to_nat (im_width img) * bands (im_mode img))).
  - rewrite length_seq. lia.
  - intros y. rewrite (length_flat_map_const _ _ (bands (im_mode img))).
    + by rewrite length_seq.
    + intros x. by rewrite length_map, length_seq.
Qed.

(** ** Indexing the output *)

(** A matrix output: the entry [[0][0]] is the first element stored. *)
Lemma at00_matrix result n m x rest :
  shape result = [S n; S m] -> data result = x :: rest ->
  at00 (PyArray result) = inr (element x).
Proof.
  intros Hshape Hdata. unfold at00, subscript, getitem. rewrite Hshape, Hdata.
  simpl. reflexivity.
Qed.

(** An output with an axis is handed back as the array it is. *)
Lemma sync_to_python_array out n rest :
  shape out = n :: rest -> sync_to_python out = PyArray out.
Proof. intros Hshape. unfold sync_to_python. by rewrite Hshape. Qed.

(** An array output with fewer than two axes has no entry [[0][0]]. *)
Lemma at00_low_rank result :
  (length (shape result) < 2)%nat ->
  at00 (PyArray result) = inl IndexError_scalar \/
  at00 (PyArray result) = inl (IndexError_out_of_bounds 0 0).
Proof.
  intros Hrank. unfold at00, subscript, getitem.
  destruct (shape result) as [|n [|m rest]]; simpl in *; [auto | | lia].
  destruct n; simpl; auto.
Qed.

(** ** The run up to the model *)

Lemma load_img_loaded path img target_size st :
  fs st !! path = Some (ImageFile img) ->
  load_img path target_size st = (inr (loaded img target_size), emit (EvRead path) st).
Proof.
  intros Hfile. unfold load_img, read_file, loaded. unfold_M.
  by rewrite Hfile.
Qed.

Lemma loaded_size img height width :
  im_mode (loaded img (height, width)) = RGB /\
  im_width (loaded img (height, width)) = width /\
  im_height (loaded img (height, width)) = height.
Proof.
  unfold loaded; simpl.
  set (rgb := match im_mode img with RGB => img | _ => convert_RGB img end).
  assert (im_mode rgb = RGB) as Hmode by (subst rgb; by destruct (im_mode img) eqn:?).
  destruct (Pos.eqb_spec (im_width rgb) width);
    destruct (Pos.eqb_spec (im_height rgb) height); simpl; auto.
Qed.

(** The tensor of any decoded image is a well-shaped batch of one 64x64
    image of three channels. *)
Lemma tensor_of_shape img : shape (tensor_of img) = [1; 64; 64; 3]%nat.
Proof.
  destruct (loaded_size img 64 64) as (Hmode & Hwidth & Hheight).
  unfold tensor_of, expand_dims, img_to_array; simpl.
  by rewrite Hmode, Hwidth, Hheight.
Qed.

Lemma tensor_of_well_shaped img : well_shaped (tensor_of img).
Proof.
  pose proof (img_to_array_well_shaped (loaded img (64, 64)%positive)) as Hwell.
  unfold well_shaped in *. rewrite tensor_of_shape.
  change (data (tensor_of img)) with (data (img_to_array (loaded img (64, 64)%positive))).
  rewrite Hwell.
  destruct (loaded_size img 64 64) as (Hmode & Hwidth & Hheight).
  unfold img_to_array; simpl. by rewrite Hmode, Hwidth, Hheight.
Qed.

(** With a model artifact and a decodable image in place, the model is run
    on the tensor of the image, after both files have been read. *)
Lemma model_output_loaded image_path st m img :
  fs st !! "model.h5" = Some (ModelFile m) ->
  fs st !! image_path = Some (ImageFile img) ->
  model_output image_path st =
  predict m (tensor_of img) (emit (EvRead image_path) (emit (EvRead "model.h5") st)).
Proof.
  intros Hmodel Himg. rewrite model_output_eq. unfold load_model. rewrite Hmodel.
  by rewrite (load_img_loaded image_path img).
Qed.

(** The whole invocation in that case. *)
Lemma predict_image_inference image_path st m img :
  fs st !! "model.h5" = Some (ModelFile m) ->
  fs st !! image_path = Some (ImageFile img) ->
  predict_image image_path st =
  (inference m (entropy st) img,
   emit (EvRead image_path) (emit (EvRead "model.h5") st)).
Proof.
  intros Hmodel Himg.
  rewrite predict_image_eq, (model_output_loaded _ _ m img Hmodel Himg).
  unfold predict, inference. simpl.
  by destruct (forward m (entropy st) (tensor_of img)).
Qed.

(** ** Decoding the output into a label *)

Import Samples.

(** C1. Whenever the model output has the single element [x] at position
    [[0][0]], the function returns "Normal" exactly when [x] is numerically
    equal to 1, and "Covid" exactly when it is not: the test is exact
    equality, with no threshold and no rounding. *)
Theorem classify_exact_equality image_path st result st' x :
  model_output image_path st = (inr result, st') ->
  at00 result = inr (element x) ->
  wf_scalar x = true ->
  (predict_image image_path st = (inr "Normal", st') <-> num_eq x 1) /\
  (predict_image image_path st = (inr "Covid", st') <-> ~ num_eq x 1).
Proof.
  intros Hout Hat Hwf.
  rewrite predict_image_eq, Hout, (decode_element _ _ Hat).
  rewrite <- (scalar_eq_int_one_iff x Hwf).
  destruct (scalar_eq_int x 1); split; split; intros H; simplify_eq; done.
Qed.

(** A float32 output of 0.999999 on a 128x128 image is "Covid". *)
Lemma classify_exact_equality_witness :
  (predict_image "xray.png"
     (world (const_model (arr2 (f32 999999 1000000))) (grey 128 128))).1
  = inr "Covid".
Proof.
  destruct (classify_exact_equality "xray.png"
              (world (const_model (arr2 (f32 999999 1000000))) (grey 128 128))
              (PyArray (arr2 (f32 999999 1000000)))
              (after_run (world (const_model (arr2 (f32 999999 1000000))) (grey 128 128)))
              (f32 999999 1000000)) as [_ Hcovid].
  - vm_compute; reflexivity.
  - reflexivity.
  - vm_compute; reflexivity.
  - rewrite (proj2 Hcovid); [reflexivity|].
    vm_compute. intros H; discriminate H.
Defined.

(** The values the specification names, as float32 and as float64. *)
Example decode_one : decode (PyArray (arr2 (f32 1 1))) = inr "Normal".
Proof. vm_compute; reflexivity. Qed.

Example decode_zero : decode (PyArray (arr2 (f32 0 1))) = inr "Covid".
Proof. vm_compute; reflexivity. Qed.

Example decode_half : decode (PyArray (arr2 (f32 1 2))) = inr "Covid".
Proof. vm_compute; reflexivity. Qed.

Example decode_minus_one : decode (PyArray (arr2 (f32 (-1) 1))) = inr "Covid".
Proof. vm_compute; reflexivity. Qed.

Example decode_just_below_one32 : decode (PyArray (arr2 (f32 999999 1000000))) = inr "Covid".
Proof. vm_compute; reflexivity. Qed.

Example decode_just_below_one64 : decode (PyArray (arr2 (f64 999999 1000000))) = inr "Covid".
Proof. vm_compute; reflexivity. Qed.

Example decode_nan : decode (PyArray (arr2 (SFloat binary32 S754_nan))) = inr "Covid".
Proof. vm_compute; reflexivity. Qed.

(** C2. An invocation that returns returns one of the two strings "Normal"
    and "Covid", and nothing besides that string. *)
Theorem classify_returns_label image_path st s st' :
  predict_image image_path st = (inr s, st') ->
  s = "Normal" \/ s = "Covid".
Proof.
  rewrite predict_image_eq.
  destruct (model_output image_path st) as [[e | result] st1]; [done|].
  intros [= Hs _]. by apply decode_label in Hs.
Qed.

Lemma classify_returns_label_witness :
  "Normal" = "Normal" \/ "Normal" = "Covid".
Proof.
  apply (classify_returns_label "xray.png"
           (world (const_model (arr2 (f32 1 1))) (grey 30 30))
           "Normal"
           (after_run (world (const_model (arr2 (f32 1 1))) (grey 30 30)))).
  vm_compute; reflexivity.
Defined.

(** C9. The label is a function of the entry [[0][0]] of the model output:
    two runs whose outputs have the same entry there end the same way,
    whatever else the outputs hold. *)
Theorem label_depends_only_on_at00 path1 st1 result1 st1' path2 st2 result2 st2' :
  model_output path1 st1 = (inr result1, st1') ->
  model_output path2 st2 = (inr result2, st2') ->
  at00 result1 = at00 result2 ->
  (predict_image path1 st1).1 = (predict_image path2 st2).1.
Proof.
  intros Hout1 Hout2 Hat.
  rewrite !predict_image_eq, Hout1, Hout2. simpl.
  unfold decode. by rewrite Hat.
Qed.

(** The outputs [[1, 5]] and [[1], [7]] give the same label. *)
Lemma label_depends_only_on_at00_witness :
  (predict_image "xray.png"
     (world (const_model {| shape := [1; 2]%nat; data := [SInt 1; SInt 5] |})
            (grey 30 30))).1 =
  (predict_image "xray.png"
     (world (const_model {| shape := [2; 1]%nat; data := [SInt 1; SInt 7] |})
            (grey 128 128))).1.
Proof.
  eapply (label_depends_only_on_at00
            "xray.png" _ (PyArray {| shape := [1; 2]%nat; data := [SInt 1; SInt 5] |})
            (after_run (world (const_model
               {| shape := [1; 2]%nat; data := [SInt 1; SInt 5] |}) (grey 30 30)))
            "xray.png" _ (PyArray {| shape := [2; 1]%nat; data := [SInt 1; SInt 7] |})
            (after_run (world (const_model
               {| shape := [2; 1]%nat; data := [SInt 1; SInt 7] |}) (grey 128 128)))).
  - vm_compute; reflexivity.
  - vm_compute; reflexivity.
  - reflexivity.
Defined.

(** C10. The comparison is numeric: an output whose entry [[0][0]] is
    numerically equal to 1 gives "Normal" in every representation, be it a
    float of any format, an integer or a boolean. *)
Theorem numeric_one_is_normal image_path st result st' x :
  model_output image_path st = (inr result, st') ->
  at00 result = inr (element x) ->
  wf_scalar x = true ->
  num_eq x 1 ->
  predict_image image_path st = (inr "Normal", st').
Proof.
  intros Hout Hat Hwf Hone.
  apply (scalar_eq_int_one_iff x Hwf) in Hone.
  by rewrite predict_image_eq, Hout, (decode_element _ _ Hat), Hone.
Qed.

(** The integer output [[1]] is "Normal". *)
Lemma numeric_one_is_normal_witness :
  predict_image "xray.png" (world (const_model (arr2 (SInt 1))) (grey 30 30)) =
  (inr "Normal", after_run (world (const_model (arr2 (SInt 1))) (grey 30 30))).
Proof.
  apply (numeric_one_is_normal "xray.png" _ (PyArray (arr2 (SInt 1))) _ (SInt 1)).
  - vm_compute; reflexivity.
  - reflexivity.
  - reflexivity.
  - vm_compute; reflexivity.
Defined.

(** The number 1 of each representation compares equal to the literal. *)
Lemma one_in_every_representation :
  (forall fmt, scalar_eq_int (SFloat fmt (float_of_Z fmt 1)) 1 = true) /\
  scalar_eq_int (SInt 1) 1 = true /\
  scalar_eq_int (SBool true) 1 = true.
Proof. repeat split. intros []; vm_compute; reflexivity. Qed.

Example decode_one64 : decode (PyArray (arr2 (f64 1 1))) = inr "Normal".
Proof. vm_compute; reflexivity. Qed.

Example decode_one_int : decode (PyArray (arr2 (SInt 1))) = inr "Normal".
Proof. vm_compute; reflexivity. Qed.

(** ** Preprocessing the image *)

(** C3. Whatever the size (and mode) of a decodable image, preprocessing
    raises nothing: the image is brought to 64x64 RGB and what
    [predict_image] hands to the model is the tensor of that image, of
    shape [1, 64, 64, 3]: a batch axis of length one, then height, width,
    and the channels last.  The invocation ends as the model and the
    decoding of its answer to that tensor end. *)
Theorem preprocessing_shape image_path img m st :
  fs st !! "model.h5" = Some (ModelFile m) ->
  fs st !! image_path = Some (ImageFile img) ->
  exists img',
    img' = loaded img (64, 64)%positive /\
    (im_mode img', im_width img', im_height img') = (RGB, 64, 64)%positive /\
    let tensor := expand_dims (img_to_array img') 0 in
    shape tensor = [1; 64; 64; 3]%nat /\
    well_shaped tensor /\
    model_output image_path st =
      predict m tensor (emit (EvRead image_path) (emit (EvRead "model.h5") st)) /\
    predict_image image_path st =
      (match forward m (entropy st) tensor with
       | inl e => inl e
       | inr out => decode (sync_to_python out)
       end,
       emit (EvRead image_path) (emit (EvRead "model.h5") st)).
Proof.
  intros Hmodel Himg. exists (loaded img (64, 64)%positive).
  split; [done|].
  destruct (loaded_size img 64 64) as (Hmode & Hwidth & Hheight).
  split; [by rewrite Hmode, Hwidth, Hheight|].
  split; [apply tensor_of_shape|]. split; [apply tensor_of_well_shaped|].
  split; [by apply model_output_loaded|].
  by apply predict_image_inference.
Qed.

(** A 30x30 greyscale image, and a model that rejects whatever is not a
    batch of 64x64 RGB images. *)
Lemma preprocessing_shape_witness :
  predict_image "xray.png"
    (world {| forward := fun _ x =>
                if decide (shape x = [1; 64; 64; 3]%nat)
                then inr (arr2 (SInt 1))
                else inl (ValueError_input_shape [64; 64; 3]%nat (tail (shape x))) |}
           (grey 30 30))
  = (inr "Normal",
     after_run
       (world {| forward := fun _ x =>
                   if decide (shape x = [1; 64; 64; 3]%nat)
                   then inr (arr2 (SInt 1))
                   else inl (ValueError_input_shape [64; 64; 3]%nat (tail (shape x))) |}
              (grey 30 30))).
Proof.
  destruct (preprocessing_shape "xray.png" (grey 30 30)
              {| forward := fun _ x =>
                   if decide (shape x = [1; 64; 64; 3]%nat)
                   then inr (arr2 (SInt 1))
                   else inl (ValueError_input_shape [64; 64; 3]%nat (tail (shape x))) |}
              (world {| forward := fun _ x =>
                          if decide (shape x = [1; 64; 64; 3]%nat)
                          then inr (arr2 (SInt 1))
                          else inl (ValueError_input_shape [64; 64; 3]%nat
                                      (tail (shape x))) |}
                     (grey 30 30)))
    as (img' & _ & _ & Hshape & _ & _ & Hrun).
  - reflexivity.
  - reflexivity.
  - rewrite Hrun. cbn [forward]. rewrite Hshape. reflexivity.
Defined.

Example preprocessing_128x128 :
  shape (tensor_of (grey 128 128)) = [1; 64; 64; 3]%nat.
Proof. vm_compute; reflexivity. Qed.

(** ** Failures *)

(** C4. When [image_path] names no file the function returns no label; once
    the model artifact has loaded, what it raises is the file-not-found
    error for [image_path].  Every failure of a step (loading the model,
    loading the image, running the model) reaches the caller as it was
    raised: the same exception, and no label in its place. *)
Theorem failures_propagate image_path st :
  (fs st !! image_path = None ->
     (forall s st', predict_image image_path st <> (inr s, st')) /\
     (forall model st1,
        load_model "model.h5" st = (inr model, st1) ->
        predict_image image_path st =
          (inl (FileNotFoundError image_path), emit (EvOpenFailed image_path) st1))) /\
  (forall e st1,
     load_model "model.h5" st = (inl e, st1) ->
     predict_image image_path st = (inl e, st1)) /\
  (forall model st1 e st2,
     load_model "model.h5" st = (inr model, st1) ->
     load_img image_path (64, 64)%positive st1 = (inl e, st2) ->
     predict_image image_path st = (inl e, st2)) /\
  (forall model st1 img st2 e st3,
     load_model "model.h5" st = (inr model, st1) ->
     load_img image_path (64, 64)%positive st1 = (inr img, st2) ->
     predict model (expand_dims (img_to_array img) 0) st2 = (inl e, st3) ->
     predict_image image_path st = (inl e, st3)).
Proof.
  assert (forall model st1,
    fs st !! image_path = None ->
    load_model "model.h5" st = (inr model, st1) ->
    predict_image image_path st =
      (inl (FileNotFoundError image_path), emit (EvOpenFailed image_path) st1))
    as Hmissing.
  { intros model st1 Hnone Hload.
    rewrite predict_image_eq, model_output_eq, Hload.
    assert (fs st1 = fs st) as Hfs.
    { unfold load_model in Hload.
      destruct (fs st !! "model.h5") as [[]|]; by simplify_eq. }
    unfold load_img, read_file. unfold_M. by rewrite Hfs, Hnone. }
  split; [|split; [|split]].
  - intros Hnone. split; [|by eauto].
    intros s st' Hlabel.
    destruct (load_model "model.h5" st) as [[e | model] st1] eqn:Hload.
    + rewrite predict_image_eq, model_output_eq, Hload in Hlabel. done.
    + rewrite (Hmissing model st1 Hnone eq_refl) in Hlabel. done.
  - intros e st1 Hload. by rewrite predict_image_eq, model_output_eq, Hload.
  - intros model st1 e st2 Hload Himg.
    by rewrite predict_image_eq, model_output_eq, Hload, Himg.
  - intros model st1 img st2 e st3 Hload Himg Hpredict.
    by rewrite predict_image_eq, model_output_eq, Hload, Himg, Hpredict.
Qed.

(** A path that names no file, next to a working model. *)
Lemma failures_propagate_witness :
  predict_image "missing.png" (world (const_model (arr2 (f32 1 1))) (grey 30 30)) =
  (inl (FileNotFoundError "missing.png"),
   emit (EvOpenFailed "missing.png")
     (emit (EvRead "model.h5") (world (const_model (arr2 (f32 1 1))) (grey 30 30)))).
Proof.
  apply (proj2 (proj1 (failures_propagate "missing.png"
           (world (const_model (arr2 (f32 1 1))) (grey 30 30))) eq_refl)
           (const_model (arr2 (f32 1 1)))).
  vm_compute; reflexivity.
Defined.

(** A file that is no image, and a model built for another input shape. *)
Example undecodable_image :
  (predict_image "notes.txt"
     {| fs := <["notes.txt" := OtherFile false]>
                (fs (world (const_model (arr2 (f32 1 1))) (grey 30 30)));
        entropy := 0; log := [] |}).1 =
  inl (UnidentifiedImageError "notes.txt").
Proof. vm_compute; reflexivity. Qed.

Example shape_mismatch :
  (predict_image "xray.png" (world large_model (grey 30 30))).1 =
  inl (ValueError_input_shape [224; 224; 3]%nat [64; 64; 3]%nat).
Proof. vm_compute; reflexivity. Qed.

(** ** Outputs of other shapes *)

(** C5, as the code has it.  When the entry [[0][0]] of the output holds a
    single value that is not 1 the function returns "Covid", whatever the
    value.  The shape is not free.  An output without axes comes back from
    the model as a Python number, which cannot be indexed, and the type
    error reaches the caller; an output of one axis has no entry [[0][0]]
    and the index error does; an entry that holds several values has no
    truth value and the value error does. *)
Theorem decode_else_branch image_path st result st' :
  model_output image_path st = (inr result, st') ->
  (forall entry x,
     at00 result = inr entry -> data entry = [x] ->
     wf_scalar x = true -> ~ num_eq x 1 ->
     predict_image image_path st = (inr "Covid", st')) /\
  (forall x,
     result = PyNumber x ->
     predict_image image_path st = (inl TypeError_not_subscriptable, st')) /\
  (forall a,
     result = PyArray a -> length (shape a) = 1%nat ->
     predict_image image_path st = (inl IndexError_scalar, st') \/
     predict_image image_path st = (inl (IndexError_out_of_bounds 0 0), st')) /\
  (forall entry x y rest,
     at00 result = inr entry -> data entry = x :: y :: rest ->
     predict_image image_path st = (inl ValueError_ambiguous_truth, st')).
Proof.
  intros Hout. rewrite predict_image_eq, Hout. unfold decode.
  split; [|split; [|split]].
  - intros entry x Hat Hdata Hwf Hne. rewrite Hat.
    unfold truth, eq_int; simpl. rewrite Hdata; simpl.
    destruct (scalar_eq_int x 1) eqn:Heq; [|done].
    by apply (scalar_eq_int_one_iff x Hwf) in Heq.
  - by intros x ->.
  - intros a -> Hrank.
    destruct (at00_low_rank a) as [-> | ->]; [lia | by left | by right].
  - intros entry x y rest Hat Hdata. rewrite Hat.
    unfold truth, eq_int; simpl. by rewrite Hdata.
Qed.

(** The float32 output [[0.5]]. *)
Lemma decode_else_branch_witness :
  predict_image "xray.png" (world (const_model (arr2 (f32 1 2))) (grey 30 30)) =
  (inr "Covid", after_run (world (const_model (arr2 (f32 1 2))) (grey 30 30))).
Proof.
  apply (proj1 (decode_else_branch "xray.png"
                  (world (const_model (arr2 (f32 1 2))) (grey 30 30))
                  (PyArray (arr2 (f32 1 2)))
                  (after_run (world (const_model (arr2 (f32 1 2))) (grey 30 30)))
                  ltac:(vm_compute; reflexivity))
               (element (f32 1 2)) (f32 1 2)).
  - reflexivity.
  - reflexivity.
  - vm_compute; reflexivity.
  - vm_compute. intros H; discriminate H.
Defined.

(** A one-dimensional output [0.] and an output of shape (1, 1, 2): neither
    value is 1, and neither run returns "Covid". *)
Lemma decode_else_branch_counterexample :
  let flat := {| shape := [1]%nat; data := [f32 0 1] |} in
  let deep := {| shape := [1; 1; 2]%nat; data := [f32 0 1; f32 0 1] |} in
  (predict_image "xray.png" (world (const_model flat) (grey 30 30))).1
    = inl IndexError_scalar /\
  (predict_image "xray.png" (world (const_model deep) (grey 30 30))).1
    = inl ValueError_ambiguous_truth /\
  ~ (forall result,
       (predict_image "xray.png" (world (const_model result) (grey 30 30))).1
       = inr "Normal" \/
       (predict_image "xray.png" (world (const_model result) (grey 30 30))).1
       = inr "Covid").
Proof.
  assert ((predict_image "xray.png"
             (world (const_model {| shape := [1]%nat; data := [f32 0 1] |})
                    (grey 30 30))).1 = inl IndexError_scalar) as Hflat
    by (vm_compute; reflexivity).
  split; [exact Hflat|]. split; [vm_compute; reflexivity|].
  intros Hall.
  destruct (Hall {| shape := [1]%nat; data := [f32 0 1] |}) as [H | H];
    rewrite Hflat in H; discriminate H.
Qed.

(** An output without axes, the float32 0. *)
Example scalar_output :
  (predict_image "xray.png"
     (world (const_model {| shape := []; data := [f32 0 1] |}) (grey 30 30))).1
  = inl TypeError_not_subscriptable.
Proof. vm_compute; reflexivity. Qed.

(** ** The model artifact and the file system *)

(** What an invocation does with the artifact, in any world. *)
Lemma model_loaded image_path st :
  let r := predict_image image_path st in
  (fs st !! "model.h5" = None ->
     r = (inl (OSError_not_found "model.h5"), emit (EvOpenFailed "model.h5") st)) /\
  (forall m,
     fs st !! "model.h5" = Some (ModelFile m) ->
     (exists rest, log r.2 = log st ++ EvRead "model.h5" :: rest) /\
     (forall img,
        fs st !! image_path = Some (ImageFile img) ->
        r.1 = inference m (entropy st) img)).
Proof.
  simpl. split.
  - intros Hnone. rewrite predict_image_eq, model_output_eq. unfold load_model.
    by rewrite Hnone.
  - intros m Hmodel. split.
    + destruct (predict_image_trace image_path st) as (_ & _ & evs & Hlog & Htrace).
      rewrite Hlog. destruct Htrace; simplify_eq; eauto.
    + intros img Himg. by rewrite (predict_image_inference _ _ m img).
Qed.

(** C6. Every invocation goes to the file system for the artifact at the
    fixed path [model.h5], whatever [image_path] is: it fails with that
    path's error when nothing is there, and when a model is there it reads
    it and answers with that model.  Nothing is kept from one invocation to
    the next: whatever the file system holds when the following invocation
    starts, that invocation reads [model.h5] again and answers with the
    model it finds there then, or fails if the artifact has gone. *)
Theorem model_loaded_on_every_call image_path st :
  let r := predict_image image_path st in
  (fs st !! "model.h5" = None ->
     r = (inl (OSError_not_found "model.h5"), emit (EvOpenFailed "model.h5") st)) /\
  (forall m,
     fs st !! "model.h5" = Some (ModelFile m) ->
     (exists rest, log r.2 = log st ++ EvRead "model.h5" :: rest) /\
     (forall img,
        fs st !! image_path = Some (ImageFile img) ->
        r.1 = inference m (entropy st) img)) /\
  (forall files e path',
     let st' := with_world files e r.2 in
     let r' := predict_image path' st' in
     (files !! "model.h5" = None ->
        r' = (inl (OSError_not_found "model.h5"), emit (EvOpenFailed "model.h5") st')) /\
     (forall m',
        files !! "model.h5" = Some (ModelFile m') ->
        (exists rest, log r'.2 = log r.2 ++ EvRead "model.h5" :: rest) /\
        (forall img',
           files !! path' = Some (ImageFile img') ->
           r'.1 = inference m' e img'))).
Proof.
  simpl. destruct (model_loaded image_path st) as [Habsent Hpresent].
  split; [exact Habsent|]. split; [exact Hpresent|].
  intros files e path'.
  apply (model_loaded path' (with_world files e (predict_image image_path st).2)).
Qed.

(** The answer is that of the model found at [model.h5]. *)
Lemma model_loaded_on_every_call_witness :
  (predict_image "xray.png" (world (const_model (arr2 (f32 1 1))) (grey 30 30))).1 =
  inference (const_model (arr2 (f32 1 1))) 0 (grey 30 30).
Proof.
  apply (proj2 (proj1 (proj2 (model_loaded_on_every_call "xray.png"
           (world (const_model (arr2 (f32 1 1))) (grey 30 30))))
           (const_model (arr2 (f32 1 1))) eq_refl)
           (grey 30 30) eq_refl).
Defined.

(** The artifact is replaced after a first call: the second call answers
    with the new model. *)
Example model_replaced_between_calls :
  let st := world (const_model (arr2 (f32 1 1))) (grey 30 30) in
  let r := predict_image "xray.png" st in
  r.1 = inr "Normal" /\
  (predict_image "xray.png"
     (with_world (<["model.h5" := ModelFile (const_model (arr2 (f32 0 1)))]> (fs r.2))
        (entropy r.2) r.2)).1
  = inr "Covid".
Proof. split; vm_compute; reflexivity. Qed.

(** The artifact is removed after a first, successful call. *)
Example model_removed_between_calls :
  let st := world (const_model (arr2 (f32 1 1))) (grey 30 30) in
  let r := predict_image "xray.png" st in
  r.1 = inr "Normal" /\
  (predict_image "xray.png"
     (with_world (delete "model.h5" (fs r.2)) (entropy r.2) r.2)).1
  = inl (OSError_not_found "model.h5").
Proof. split; vm_compute; reflexivity. Qed.

(** The image path may name a model: the model is still [model.h5]. *)
Example model_path_is_not_an_argument :
  (predict_image "other.h5"
     {| fs := {[ "other.h5" := ModelFile (const_model (arr2 (f32 1 1))) ]};
        entropy := 0; log := [] |}).1
  = inl (OSError_not_found "model.h5").
Proof. vm_compute; reflexivity. Qed.







(** ** Determinism *)

(** C8. With the same file system and a deterministic model, two
    invocations on the same path end the same way, whatever the entropy
    and the log they start from; in particular a second invocation right
    after a first one repeats its label. *)
Theorem classify_deterministic image_path st1 st2 :
  fs st1 = fs st2 ->
  (forall m, fs st1 !! "model.h5" = Some (ModelFile m) -> deterministic m) ->
  (predict_image image_path st1).1 = (predict_image image_path st2).1 /\
  forall e,
    let r := predict_image image_path st1 in
    (predict_image image_path (with_world (fs r.2) e r.2)).1 = r.1.
Proof.
  intros Hfs Hdet. split.
  - apply predict_image_ext; auto.
  - intros e. simpl. symmetry. apply predict_image_ext; [|auto].
    simpl. symmetry. apply predict_image_trace.
Qed.

Lemma classify_deterministic_witness :
  (predict_image "xray.png" (world (const_model (arr2 (f32 1 1))) (grey 30 30))).1 =
  (predict_image "xray.png"
     (with_world (fs (world (const_model (arr2 (f32 1 1))) (grey 30 30))) 7
        (after_run (world (const_model (arr2 (f32 1 1))) (grey 30 30))))).1.
Proof.
  apply (classify_deterministic "xray.png"
           (world (const_model (arr2 (f32 1 1))) (grey 30 30))
           (with_world (fs (world (const_model (arr2 (f32 1 1))) (grey 30 30))) 7
              (after_run (world (const_model (arr2 (f32 1 1))) (grey 30 30))))).
  - reflexivity.
  - intros m Hm. vm_compute in Hm. injection Hm as <-.
    intros e1 e2 x. reflexivity.
Defined.

(** A model that is not deterministic can change its answer. *)
Example noisy_model_disagrees :
  let st := world noisy_model (grey 30 30) in
  (predict_image "xray.png" st).1 = inr "Covid" /\
  (predict_image "xray.png" (with_world (fs st) 1 st)).1 = inr "Normal".
Proof. split; vm_compute; reflexivity. Qed.

(** * Further properties of [predict_image] *)

(** X1. With a model at [model.h5] that answers a batch of one 64x64 RGB
    image with a matrix of at least one row and one column, and a decodable
    image at [image_path], the invocation returns a label, with both files
    read. *)
Theorem returns_label_for_matrix_output image_path st m img :
  fs st !! "model.h5" = Some (ModelFile m) ->
  fs st !! image_path = Some (ImageFile img) ->
  (forall x, shape x = [1; 64; 64; 3]%nat ->
     exists out rows cols v rest,
       forward m (entropy st) x = inr out /\
       shape out = [S rows; S cols] /\
       data out = v :: rest) ->
  exists s,
    predict_image image_path st =
      (inr s, emit (EvRead image_path) (emit (EvRead "model.h5") st)) /\
    (s = "Normal" \/ s = "Covid").
Proof.
  intros Hmodel Himg Hmatrix.
  rewrite (predict_image_inference _ _ m img Hmodel Himg). unfold inference.
  destruct (Hmatrix _ (tensor_of_shape img))
    as (out & rows & cols & v & rest & -> & Hshape & Hdata).
  rewrite (sync_to_python_array _ _ _ Hshape).
  rewrite (decode_element _ v (at00_matrix _ _ _ _ _ Hshape Hdata)).
  eexists. split; [reflexivity|]. destruct (scalar_eq_int v 1); auto.
Qed.

Lemma returns_label_for_matrix_output_witness :
  exists s,
    predict_image "xray.png" (world (const_model (arr2 (f32 1 2))) (colour 640 480)) =
      (inr s, after_run (world (const_model (arr2 (f32 1 2))) (colour 640 480))) /\
    (s = "Normal" \/ s = "Covid").
Proof.
  apply (returns_label_for_matrix_output "xray.png"
           (world (const_model (arr2 (f32 1 2))) (colour 640 480))
           (const_model (arr2 (f32 1 2))) (colour 640 480)).
  - reflexivity.
  - reflexivity.
  - intros x _. exists (arr2 (f32 1 2)), 0%nat, 0%nat, (f32 1 2), [].
    repeat split; reflexivity.
Defined.

(** X2. A label is returned only when [model.h5] holds a model and
    [image_path] holds a decodable image; both files have then been read,
    the model has answered the tensor of the image with an array, and the
    label is the decoding of that answer. *)
Theorem label_requires_both_files image_path st s st' :
  predict_image image_path st = (inr s, st') ->
  exists m img out,
    fs st !! "model.h5" = Some (ModelFile m) /\
    fs st !! image_path = Some (ImageFile img) /\
    st' = emit (EvRead image_path) (emit (EvRead "model.h5") st) /\
    forward m (entropy st) (tensor_of img) = inr out /\
    decode (sync_to_python out) = inr s.
Proof.
  intros Hrun.
  destruct (fs st !! "model.h5") as [[img0 | m | recognised]|] eqn:Hmodel.
  1, 3, 4: rewrite predict_image_eq, model_output_eq in Hrun;
           unfold load_model in Hrun; by rewrite Hmodel in Hrun.
  destruct (fs st !! image_path) as [[img | m' | recognised]|] eqn:Himg.
  2-4: rewrite predict_image_eq, model_output_eq in Hrun;
       unfold load_model, load_img, read_file in Hrun; unfold_M;
       rewrite Hmodel in Hrun; simpl in Hrun; rewrite Himg in Hrun;
       by try destruct recognised.
  rewrite (predict_image_inference _ _ m img Hmodel Himg) in Hrun.
  unfold inference in Hrun.
  destruct (forward m (entropy st) (tensor_of img)) as [e | out] eqn:Hout; [done|].
  injection Hrun as Hs <-. by exists m, img, out.
Qed.

Lemma label_requires_both_files_witness :
  exists m img out,
    fs (world (const_model (arr2 (SInt 1))) (grey 30 30)) !! "model.h5"
      = Some (ModelFile m) /\
    fs (world (const_model (arr2 (SInt 1))) (grey 30 30)) !! "xray.png"
      = Some (ImageFile img) /\
    forward m 0 (tensor_of img) = inr out /\
    decode (sync_to_python out) = inr "Normal".
Proof.
  destruct (label_requires_both_files "xray.png"
              (world (const_model (arr2 (SInt 1))) (grey 30 30))
              "Normal"
              (after_run (world (const_model (arr2 (SInt 1))) (grey 30 30))))
    as (m & img & out & Hm & Himg & _ & Hout & Hs).
  - vm_compute; reflexivity.
  - exists m, img, out. auto.
Defined.

(** ** Failures, one by one *)

(** X3. When the model artifact has loaded and [image_path] holds a file
    that is no image, the invocation raises what Pillow raises for that
    file, after having read it, and the model is not run: the file is not
    identified, or its format is recognised and it cannot be loaded, which
    is the case of the HDF5 file of a model. *)
Theorem undecodable_image_raises image_path st m f :
  fs st !! "model.h5" = Some (ModelFile m) ->
  fs st !! image_path = Some f ->
  (forall img, f <> ImageFile img) ->
  exists e,
    predict_image image_path st =
      (inl e, emit (EvRead image_path) (emit (EvRead "model.h5") st)) /\
    (e = UnidentifiedImageError image_path \/ e = OSError_image_load image_path) /\
    (forall m', f = ModelFile m' -> e = OSError_image_load image_path).
Proof.
  intros Hmodel Hfile Hno.
  rewrite predict_image_eq, model_output_eq. unfold load_model. rewrite Hmodel.
  unfold load_img, read_file. unfold_M. simpl. rewrite Hfile.
  destruct f as [img | m' | []]; [by destruct (Hno img) | | |];
    eexists; (split; [reflexivity|]); split; auto; intros; by simplify_eq.
Qed.

(** The model artifact itself, passed as the image. *)
Lemma undecodable_image_raises_witness :
  exists e,
    predict_image "model.h5" (world noisy_model (grey 30 30)) =
      (inl e, emit (EvRead "model.h5")
                (emit (EvRead "model.h5") (world noisy_model (grey 30 30)))) /\
    (e = UnidentifiedImageError "model.h5" \/ e = OSError_image_load "model.h5") /\
    (forall m', ModelFile noisy_model = ModelFile m' -> e = OSError_image_load "model.h5").
Proof.
  apply (undecodable_image_raises "model.h5" (world noisy_model (grey 30 30))
           noisy_model (ModelFile noisy_model)).
  - reflexivity.
  - reflexivity.
  - intros img H; discriminate H.
Defined.

(** X4. The image is always brought to 64x64 RGB before the model sees
    it, whatever its size: a model that rejects batches of 64x64 RGB images
    makes the invocation fail with the model's error for every decodable
    image, even one that already has the size the model was built for. *)
Theorem other_input_shape_raises image_path st m img e :
  fs st !! "model.h5" = Some (ModelFile m) ->
  fs st !! image_path = Some (ImageFile img) ->
  (forall x, shape x = [1; 64; 64; 3]%nat -> forward m (entropy st) x = inl e) ->
  predict_image image_path st =
    (inl e, emit (EvRead image_path) (emit (EvRead "model.h5") st)).
Proof.
  intros Hmodel Himg Hreject.
  rewrite (predict_image_inference _ _ m img Hmodel Himg). unfold inference.
  by rewrite (Hreject _ (tensor_of_shape img)).
Qed.

(** A 224x224 image for a model built for 224x224 images. *)
Lemma other_input_shape_raises_witness :
  predict_image "xray.png" (world large_model (colour 224 224)) =
  (inl (ValueError_input_shape [224; 224; 3]%nat [64; 64; 3]%nat),
   after_run (world large_model (colour 224 224))).
Proof.
  apply (other_input_shape_raises "xray.png" (world large_model (colour 224 224))
           large_model (colour 224 224)).
  - reflexivity.
  - reflexivity.
  - intros x Hx. simpl. rewrite Hx. reflexivity.
Defined.

(** X5. When [model.h5] holds no model the argument plays no part: the
    invocation ends the same way, in the same state, for every
    [image_path], with the error of the model path and a single access,
    to that path. *)
Theorem unusable_model_ignores_argument st path1 path2 :
  (forall m, fs st !! "model.h5" <> Some (ModelFile m)) ->
  predict_image path1 st = predict_image path2 st /\
  exists e ev,
    predict_image path1 st = (inl e, emit ev st) /\
    accessed ev = Some "model.h5" /\
    (e = OSError_not_found "model.h5" \/ e = OSError_bad_format "model.h5").
Proof.
  intros Hno. rewrite !predict_image_eq, !model_output_eq. unfold load_model.
  destruct (fs st !! "model.h5") as [[img | m | recognised]|] eqn:Hmodel.
  2: by destruct (Hno m).
  all: split; [done|]; do 2 eexists; split; [reflexivity|]; auto.
Qed.

Lemma unusable_model_ignores_argument_witness :
  predict_image "xray.png" (world_without_model (grey 30 30)) =
  predict_image "missing.png" (world_without_model (grey 30 30)).
Proof.
  apply (unusable_model_ignores_argument (world_without_model (grey 30 30))
           "xray.png" "missing.png").
  intros m H. vm_compute in H. discriminate H.
Defined.

(** ** The output, shape by shape *)

(** For an output of at least two axes, none of the first two empty, the
    entry [[0][0]] is the leading block of the stored elements. *)
Lemma at00_leading result n1 n2 rest :
  shape result = S n1 :: S n2 :: rest ->
  at00 (PyArray result) =
  inr {| shape := rest; data := take (size_of rest) (data result) |}.
Proof.
  intros Hshape. unfold at00, subscript, getitem. rewrite Hshape.
  cbn -[size_of take drop Nat.mul].
  rewrite !Nat.mul_0_l, !drop_0, take_take. do 3 f_equal.
  change (size_of (S n2 :: rest)) with (S n2 * size_of rest)%nat. lia.
Qed.

(** X9. When the model answers the tensor of the image with a well-shaped
    array, the invocation ends with a type error exactly when that array
    has no axis (it comes back as a Python number), and with an index error
    exactly when it has one axis, or more and one of the first two is
    empty. *)
Theorem index_error_iff image_path st m img out :
  fs st !! "model.h5" = Some (ModelFile m) ->
  fs st !! image_path = Some (ImageFile img) ->
  forward m (entropy st) (tensor_of img) = inr out ->
  well_shaped out ->
  let r := predict_image image_path st in
  (r.1 = inl TypeError_not_subscriptable <-> shape out = []) /\
  ((exists e, r.1 = inl e /\ is_index_error e = true) <->
   match shape out with
   | [] => False
   | [_] => True
   | n1 :: n2 :: _ => n1 = 0%nat \/ n2 = 0%nat
   end).
Proof.
  intros Hmodel Himg Hout Hwell. simpl.
  rewrite (predict_image_inference _ _ m img Hmodel Himg). unfold inference.
  rewrite Hout. simpl. unfold well_shaped in Hwell.
  destruct (shape out) as [|n1 [|n2 rest]] eqn:Hshape.
  - assert (exists x, data out = [x]) as [x Hdata].
    { destruct (data out) as [|x [|]]; simplify_eq/=. by exists x. }
    unfold sync_to_python. rewrite Hshape, Hdata. unfold decode; simpl.
    split; [done|]. split; [|done]. by intros (e & [= <-] & Herr).
  - rewrite (sync_to_python_array _ _ _ Hshape). unfold decode.
    destruct (at00_low_rank out) as [-> | ->]; [rewrite Hshape; simpl; lia | |].
    all: split; [done|]; split; [done|]; intros _; by eexists.
  - rewrite (sync_to_python_array _ _ _ Hshape). unfold decode.
    destruct n1 as [|n1]; [|destruct n2 as [|n2]].
    + unfold at00, subscript, getitem. rewrite Hshape. simpl.
      split; [done|]. split; [auto|]. intros _. by eexists.
    + unfold at00, subscript, getitem. rewrite Hshape. simpl.
      split; [done|]. split; [auto|]. intros _. by eexists.
    + rewrite (at00_leading _ _ _ _ Hshape).
      destruct (truth _) as [e' | []] eqn:Htruth.
      2, 3: split; [done|]; split; [by intros (e & ? & ?) | lia].
      unfold truth in Htruth. repeat case_match; simplify_eq.
      split; [done|]. split; [|lia]. by intros (e & [= <-] & Herr).
Qed.

(** A one-dimensional output. *)
Lemma index_error_iff_witness :
  exists e,
    (predict_image "xray.png"
       (world (const_model {| shape := [2]%nat; data := [SInt 1; SInt 0] |})
              (grey 30 30))).1 = inl e /\
    is_index_error e = true.
Proof.
  apply (index_error_iff "xray.png"
           (world (const_model {| shape := [2]%nat; data := [SInt 1; SInt 0] |}) (grey 30 30))
           (const_model {| shape := [2]%nat; data := [SInt 1; SInt 0] |})
           (grey 30 30)
           {| shape := [2]%nat; data := [SInt 1; SInt 0] |}).
  - reflexivity.
  - reflexivity.
  - reflexivity.
  - reflexivity.
  - exact I.
Defined.

(** X10. For a well-shaped output of shape (n1, n2, ...) with n1 and n2
    positive: when the remaining axes hold one element per entry (as for
    every matrix output, whatever its number of rows and columns) the label
    is decided by the first stored element alone; when they hold two or
    more the invocation raises the truth-value error. *)
Theorem outcome_by_shape image_path st result st' n1 n2 rest :
  model_output image_path st = (inr (PyArray result), st') ->
  well_shaped result ->
  shape result = S n1 :: S n2 :: rest ->
  (size_of rest = 1%nat ->
     exists v,
       head (data result) = Some v /\
       predict_image image_path st =
         (inr (if scalar_eq_int v 1 then "Normal" else "Covid"), st')) /\
  ((2 <= size_of rest)%nat ->
     predict_image image_path st = (inl ValueError_ambiguous_truth, st')).
Proof.
  intros Hout Hwell Hshape. rewrite predict_image_eq, Hout. unfold decode.
  rewrite (at00_leading _ _ _ _ Hshape).
  unfold well_shaped in Hwell. rewrite Hshape in Hwell. simpl in Hwell.
  fold (size_of rest) in Hwell.
  unfold truth, eq_int; simpl.
  split.
  - intros Hone. rewrite Hone in *.
    destruct (data result) as [|v dat]; simpl in *; [lia|].
    exists v. split; [done|]. rewrite ?take_0. simpl.
    by destruct (scalar_eq_int v 1).
  - intros Hmany.
    destruct (data result) as [|v [|v' dat]]; simpl in *; [nia | nia |].
    destruct (size_of rest) as [|[|k]]; [lia | lia | done].
Qed.

(** A two-class output [[0.25, 0.75]]: the first class decides. *)
Lemma outcome_by_shape_witness :
  exists v,
    head [f32 1 4; f32 3 4] = Some v /\
    predict_image "xray.png"
      (world (const_model {| shape := [1; 2]%nat; data := [f32 1 4; f32 3 4] |})
             (grey 30 30)) =
    (inr (if scalar_eq_int v 1 then "Normal" else "Covid"),
     after_run (world (const_model {| shape := [1; 2]%nat; data := [f32 1 4; f32 3 4] |})
                      (grey 30 30))).
Proof.
  apply (proj1 (outcome_by_shape "xray.png"
           (world (const_model {| shape := [1; 2]%nat; data := [f32 1 4; f32 3 4] |})
                  (grey 30 30))
           {| shape := [1; 2]%nat; data := [f32 1 4; f32 3 4] |}
           (after_run (world (const_model
              {| shape := [1; 2]%nat; data := [f32 1 4; f32 3 4] |}) (grey 30 30)))
           0%nat 1%nat []
           ltac:(vm_compute; reflexivity) eq_refl eq_refl)).
  reflexivity.
Defined.
